(** * delete_lines.py: removal of a fixed range of lines from App.tsx

    The script reads [App.tsx] into a list of lines, builds
    [lines[:822] + lines[1404:]], writes that list back over the file and
    prints a one-line summary.  This development embeds the script in Rocq:

    - Python's slice expressions on lists ([slice]), with the index
      adjustment Python performs for negative and out-of-range bounds;
    - the line buffer transform [new_lines] of line 10 of the script;
    - the text-mode file operations the script uses ([open], [readlines],
      [writelines]) over a file system kept as a finite map from paths to
      files, and [print] over a console, threaded through a small
      state-and-exception monad;
    - the whole script, [main].

    Platform.  The script runs on a POSIX system whose text encoding is
    UTF-8, the interpreter's default there.  A file holds bytes; text mode
    decodes them strictly on reading, turning CR and CR LF into LF, and
    writes LF as it is.  A Python [str] is kept as its UTF-8 encoding, which
    is enough for a script that only splits text at newlines and joins
    whole lines again.  A path names a regular file or a directory.
    Failures of the device (full disk, closed standard output) and special
    files are not represented. *)

From stdpp Require Import base numbers list strings pretty gmap.

Local Open Scope Z_scope.

(** ** Python list slicing *)

Module Py.

(** Adjustment of one slice bound against a sequence of length [len], for a
    step of 1: a negative bound counts from the end and is floored at 0, a
    bound past the end is cut down to [len]. *)
Definition adjust_index (len i : Z) : Z :=
  if bool_decide (i < 0) then Z.max 0 (i + len) else Z.min i len.

Section slicing.
Context {A : Type}.
Implicit Types (l : list A) (start stop : option Z).

(** [l[start:stop]]; an omitted bound is [None]. *)
Definition slice l start stop : list A :=
  let len := Z.of_nat (length l) in
  let lo := from_option (adjust_index len) 0 start in
  let hi := from_option (adjust_index len) len stop in
  take (Z.to_nat (hi - lo)) (drop (Z.to_nat lo) l).

(** [len(l)] *)
Definition len l : Z := Z.of_nat (length l).
End slicing.

End Py.
Import Py.

(** ** The line buffer transform *)

(** A line of the file, terminator included. *)
Abbreviation line := string.

(** The expression of line 10 with its two literals abstracted:
    [buffer[:a] + buffer[b:]]. *)
Definition delete_range {A} (buffer : list A) (a b : Z) : list A :=
  slice buffer None (Some a) ++ slice buffer (Some b) None.

(** [new_lines = lines[:822] + lines[1404:]] *)
Definition new_lines (lines : list line) : list line :=
  slice lines None (Some 822) ++ slice lines (Some 1404) None.

(** ** Files, console and the script's effects *)

(** The exceptions of the script: the three [open] raises for a path that
    cannot be opened, and the one text-mode reading raises on bytes that are
    not UTF-8. *)
Inductive exn : Type :=
  | FileNotFoundError (path : string)
  | PermissionError (path : string)
  | IsADirectoryError (path : string)
  | UnicodeDecodeError.

Inductive mode : Type := R | W.

(** What a path names: the bytes it holds, the permissions of the process
    on it, and whether it is a directory. *)
Record file : Type := File {
  contents : string;
  readable : bool;
  writable : bool;
  directory : bool
}.

(** What the script can observe and change: the files, by path, and the
    lines printed so far. *)
Record world : Type := World {
  fs : gmap string file;
  stdout : list string
}.

(** An open file object. *)
Record handle : Type := Handle { h_path : string; h_mode : mode }.

(** A statement either completes with a value or raises; in both cases it
    leaves a world behind. *)
Definition IO (A : Type) : Type := world -> (exn + A) * world.

#[global] Instance IO_ret : MRet IO := fun A (x : A) w => (inr x, w).
#[global] Instance IO_bind : MBind IO := fun A B (k : A -> IO B) (m : IO A) w =>
  match m w with
  | (inl e, w') => (inl e, w')
  | (inr x, w') => k x w'
  end.

Definition set_fs (g : gmap string file -> gmap string file) (w : world) : world :=
  {| fs := g (fs w); stdout := stdout w |}.

Definition set_contents (s : string) (f : file) : file :=
  {| contents := s; readable := readable f; writable := writable f;
     directory := directory f |}.

(** [open(path, 'r')] needs an existing path that the process may read and
    that is not a directory.  [open(path, 'w')] refuses a directory, needs
    write permission on an existing file, which it empties, and creates a
    missing file empty. *)
Definition open (path : string) (m : mode) : IO handle := fun w =>
  match m, fs w !! path with
  | R, None => (inl (FileNotFoundError path), w)
  | R, Some f =>
      if negb (readable f) then (inl (PermissionError path), w)
      else if directory f then (inl (IsADirectoryError path), w)
      else (inr (Handle path R), w)
  | W, None =>
      (inr (Handle path W), set_fs <[path := File EmptyString true true false]> w)
  | W, Some f =>
      if directory f then (inl (IsADirectoryError path), w)
      else if writable f
      then (inr (Handle path W), set_fs <[path := set_contents EmptyString f]> w)
      else (inl (PermissionError path), w)
  end.

Definition LF : Ascii.ascii := Ascii.ascii_of_nat 10.
Definition CR : Ascii.ascii := Ascii.ascii_of_nat 13.

(** *** Strict UTF-8 decoding *)

(** The byte [c] lies in [lo..hi]. *)
Definition in_range (lo hi : N) (c : Ascii.ascii) : bool :=
  (lo <=? Ascii.N_of_ascii c)%N && (Ascii.N_of_ascii c <=? hi)%N.

Definition continuation (c : Ascii.ascii) : bool := in_range 128 191 c.

(** The second byte of a three-byte sequence: no overlong form after E0, no
    surrogate after ED. *)
Definition second_of_3 (c0 c1 : Ascii.ascii) : bool :=
  if in_range 224 224 c0 then in_range 160 191 c1
  else if in_range 237 237 c0 then in_range 128 159 c1
  else continuation c1.

(** The second byte of a four-byte sequence: no overlong form after F0,
    nothing above U+10FFFF after F4. *)
Definition second_of_4 (c0 c1 : Ascii.ascii) : bool :=
  if in_range 240 240 c0 then in_range 144 191 c1
  else if in_range 244 244 c0 then in_range 128 143 c1
  else continuation c1.

(** The bytes are a sequence of well-formed UTF-8 code points, which is when
    the strict decoder accepts them. *)
Fixpoint utf8_valid (s : string) : bool :=
  match s with
  | EmptyString => true
  | String c0 s1 =>
      if in_range 0 127 c0 then utf8_valid s1
      else match s1 with
      | EmptyString => false
      | String c1 s2 =>
          if in_range 194 223 c0 then continuation c1 && utf8_valid s2
          else match s2 with
          | EmptyString => false
          | String c2 s3 =>
              if in_range 224 239 c0
              then second_of_3 c0 c1 && continuation c2 && utf8_valid s3
              else match s3 with
              | EmptyString => false
              | String c3 s4 =>
                  in_range 240 244 c0 && second_of_4 c0 c1 && continuation c2
                  && continuation c3 && utf8_valid s4
              end
          end
      end
  end.

(** Decoding the bytes of a file: the text, kept as the same bytes, or
    [UnicodeDecodeError]. *)
Definition decode (bytes : string) : exn + string :=
  if utf8_valid bytes then inr bytes else inl UnicodeDecodeError.

(** Newline translation on reading: CR LF and a CR alone become LF.
    [after_cr] tells that the byte before was a CR, already turned into the
    LF a following LF belongs to. *)
Fixpoint translate_newlines (after_cr : bool) (s : string) : string :=
  match s with
  | EmptyString => EmptyString
  | String c rest =>
      if bool_decide (c = CR) then String LF (translate_newlines true rest)
      else if bool_decide (c = LF) then
        if after_cr then translate_newlines false rest
        else String LF (translate_newlines false rest)
      else String c (translate_newlines false rest)
  end.

Definition universal_newlines (s : string) : string := translate_newlines false s.

(** The lines of a text, each with its terminating newline; the last line
    has none when the text does not end in one. *)
Fixpoint splitlines (s : string) : list line :=
  match s with
  | EmptyString => []
  | String c rest =>
      if bool_decide (c = LF) then String c EmptyString :: splitlines rest
      else match splitlines rest with
           | [] => [String c EmptyString]
           | l :: ls => String c l :: ls
           end
  end.

(** [f.readlines()] on a file just opened in text mode: the bytes are
    decoded, newlines translated, and the text cut into lines; bytes that do
    not decode raise. *)
Definition readlines (f : handle) : IO (list line) := fun w =>
  match decode (from_option contents EmptyString (fs w !! h_path f)) with
  | inl e => (inl e, w)
  | inr text => (inr (splitlines (universal_newlines text)), w)
  end.

Definition join (ls : list line) : string := foldr String.append EmptyString ls.

(** [f.writelines(ls)]: the strings are written one after the other, nothing
    is added between them; encoding keeps the bytes and LF is written as LF. *)
Definition writelines (f : handle) (ls : list line) : IO unit := fun w =>
  (inr (), set_fs (alter (fun x => set_contents (contents x +:+ join ls) x) (h_path f)) w).

(** [print(s)] *)
Definition print (s : string) : IO unit := fun w =>
  (inr (), {| fs := fs w; stdout := stdout w ++ [s] |}).

(** The f-string of line 16, over the two numbers it interpolates. *)
Definition format_summary (removed total : Z) : string :=
  "Deleted " +:+ pretty removed +:+ " lines. New file has " +:+ pretty total +:+ " lines.".

(** The summary as the script computes it from [new_lines]. *)
Definition summary (out : list line) : string :=
  format_summary (1404 - 822) (len out).

(** ** The script *)

Definition main : IO unit :=
  f ← open "App.tsx" R;
  lines ← readlines f;
  let out := new_lines lines in
  f ← open "App.tsx" W;
  writelines f out;;
  print (summary out).

(** An uncaught exception ends the interpreter with status 1. *)
Definition exit_status {A} (r : exn + A) : Z :=
  match r with inl _ => 1 | inr _ => 0 end.

(** The target file can be opened for reading and for writing: it exists,
    is not a directory, and the process has both permissions. *)
Definition accessible (w : world) : Prop :=
  exists f, fs w !! "App.tsx" = Some f /\ readable f = true /\ writable f = true
            /\ directory f = false.

(** The bytes of the target file are UTF-8 text. *)
Definition decodable (w : world) : Prop :=
  exists f, fs w !! "App.tsx" = Some f /\ utf8_valid (contents f) = true.

(** The text of the target file, when it exists. *)
Definition target_text (w : world) : option string :=
  contents <$> fs w !! "App.tsx".

(** The number of lines the transform takes out of a buffer. *)
Definition removed_count (lines : list line) : Z :=
  len lines - len (new_lines lines).

(** The target file can be opened in both modes and [readlines] yields
    [lines] on it. *)
Definition target_lines (w : world) (lines : list line) : Prop :=
  exists f, fs w !! "App.tsx" = Some f /\ readable f = true /\ writable f = true
            /\ directory f = false /\ utf8_valid (contents f) = true
            /\ splitlines (universal_newlines (contents f)) = lines.

(** A buffer of [n] distinct numbered lines, for the examples. *)
Definition numbered (n : nat) : list line :=
  (fun i : nat => pretty (Z.of_nat i) +:+ String LF EmptyString) <$> seq 0 n.

(** A text of [n] empty lines. *)
Fixpoint blank_text (n : nat) : string :=
  match n with
  | O => EmptyString
  | S n' => String LF (blank_text n')
  end.

(** A world whose only file is a readable and writable [App.tsx] holding
    the given bytes, with nothing printed yet. *)
Definition world_of_text (t : string) : world :=
  {| fs := {[ "App.tsx" := File t true true false ]}; stdout := [] |}.



(** Two lines with CR LF endings, and one byte that is not UTF-8. *)
Definition crlf_sample : string :=
  "a" +:+ String CR (String LF EmptyString) +:+ "b" +:+ String CR (String LF EmptyString).

Definition invalid_sample : string := String (Ascii.ascii_of_nat 255) EmptyString.





Example new_lines_numbered_length : length (new_lines (numbered 1500)) = 918%nat.
Proof. vm_compute. reflexivity. Qed.

Example summary_numbered :
  summary (new_lines (numbered 1500)) = "Deleted 582 lines. New file has 918 lines.".
Proof. vm_compute. reflexivity. Qed.

Example numbered_read_back : splitlines (join (numbered 1000)) = numbered 1000.
Proof. vm_compute. reflexivity. Qed.

Example main_small :
  main (world_of_text "a
b
c")
  = (inr (), {| fs := {[ "App.tsx" := File "a
b
c" true true false ]}; stdout := ["Deleted 582 lines. New file has 3 lines."] |}).
Proof. vm_compute. reflexivity. Qed.

(** A file with CR LF endings is read as lines ending in LF and written back
    that way. *)
Example main_crlf :
  main (world_of_text crlf_sample)
  = (inr (),
     {| fs := {[ "App.tsx" :=
                   File ("a" +:+ String LF EmptyString +:+ "b" +:+ String LF EmptyString)
                        true true false ]};
        stdout := ["Deleted 582 lines. New file has 2 lines."] |}).
Proof. vm_compute. reflexivity. Qed.

(** A lone CR ends a line as well. *)
Example readlines_lone_CR :
  splitlines (universal_newlines
                ("a" +:+ String CR EmptyString +:+ "b" +:+ String CR EmptyString))
  = ["a" +:+ String LF EmptyString; "b" +:+ String LF EmptyString].
Proof. vm_compute. reflexivity. Qed.

(** Bytes that are not UTF-8 stop the script in [readlines], before anything
    is written; a directory stops it in [open]. *)
Example main_invalid :
  main (world_of_text invalid_sample)
  = (inl UnicodeDecodeError, world_of_text invalid_sample).
Proof. vm_compute. reflexivity. Qed.

Example main_on_directory :
  main {| fs := {[ "App.tsx" := File EmptyString true true true ]}; stdout := [] |}
  = (inl (IsADirectoryError "App.tsx"),
     {| fs := {[ "App.tsx" := File EmptyString true true true ]}; stdout := [] |}).
Proof. vm_compute. reflexivity. Qed.

Example utf8_valid_samples :
  utf8_valid (String (Ascii.ascii_of_nat 195) (String (Ascii.ascii_of_nat 169) EmptyString)) = true
  ∧ utf8_valid (String (Ascii.ascii_of_nat 192) (String (Ascii.ascii_of_nat 128) EmptyString)) = false
  ∧ utf8_valid (String (Ascii.ascii_of_nat 237) (String (Ascii.ascii_of_nat 160)
                  (String (Ascii.ascii_of_nat 128) EmptyString))) = false
  ∧ utf8_valid (String (Ascii.ascii_of_nat 240) (String (Ascii.ascii_of_nat 159)
                  (String (Ascii.ascii_of_nat 152) (String (Ascii.ascii_of_nat 128) EmptyString)))) = true
  ∧ utf8_valid (String (Ascii.ascii_of_nat 226) (String (Ascii.ascii_of_nat 130) EmptyString)) = false.
Proof. vm_compute. done. Qed.

(** ** Facts about slicing *)

Section slice_facts.
Context {A : Type}.
Implicit Types (l : list A) (a b : Z).

Lemma adjust_index_range n i : 0 ≤ n → 0 ≤ adjust_index n i ≤ n.
Proof. intros Hn. unfold adjust_index. case_bool_decide; lia. Qed.

Lemma adjust_index_nonneg n i : 0 ≤ i → adjust_index n i = Z.min i n.
Proof. intros Hi. unfold adjust_index. case_bool_decide; lia. Qed.

(** [l[:b]] keeps the first [adjust_index (len l) b] elements. *)
Lemma slice_upto_adjust l b :
  slice l None (Some b) = take (Z.to_nat (adjust_index (len l) b)) l.
Proof.
  unfold slice, len. cbn [from_option].
  by rewrite Z.sub_0_r, Z2Nat.inj_0, drop_0.
Qed.

(** [l[a:]] drops the first [adjust_index (len l) a] elements. *)
Lemma slice_from_adjust l a :
  slice l (Some a) None = drop (Z.to_nat (adjust_index (len l) a)) l.
Proof.
  unfold slice, len. cbn [from_option].
  apply take_ge. rewrite length_drop.
  pose proof (adjust_index_range (Z.of_nat (length l)) a). lia.
Qed.

Lemma slice_upto l b : 0 ≤ b → slice l None (Some b) = take (Z.to_nat b) l.
Proof.
  intros Hb. rewrite slice_upto_adjust, adjust_index_nonneg by done.
  unfold len. destruct (decide (b ≤ Z.of_nat (length l))) as [Hle|Hgt].
  - by rewrite Z.min_l.
  - rewrite Z.min_r, Nat2Z.id by lia. rewrite !take_ge; [done|lia|lia].
Qed.

Lemma slice_from l a : 0 ≤ a → slice l (Some a) None = drop (Z.to_nat a) l.
Proof.
  intros Ha. rewrite slice_from_adjust, adjust_index_nonneg by done.
  unfold len. destruct (decide (a ≤ Z.of_nat (length l))) as [Hle|Hgt].
  - by rewrite Z.min_l.
  - rewrite Z.min_r, Nat2Z.id by lia. rewrite !drop_ge; [done|lia|lia].
Qed.

Lemma delete_range_take_drop l a b :
  0 ≤ a → 0 ≤ b →
  delete_range l a b = take (Z.to_nat a) l ++ drop (Z.to_nat b) l.
Proof. intros Ha Hb. unfold delete_range. by rewrite slice_upto, slice_from. Qed.
End slice_facts.

(** The transform of the script in terms of [take] and [drop]. *)
Lemma new_lines_take_drop (lines : list line) :
  new_lines lines = take 822 lines ++ drop 1404 lines.
Proof. unfold new_lines. by rewrite slice_upto, slice_from. Qed.

Lemma new_lines_delete_range (lines : list line) :
  new_lines lines = delete_range lines 822 1404.
Proof. reflexivity. Qed.

Lemma length_new_lines (lines : list line) :
  length (new_lines lines) = (Nat.min 822 (length lines) + (length lines - 1404))%nat.
Proof. by rewrite new_lines_take_drop, length_app, length_take, length_drop. Qed.

(** ** Facts about the file operations *)

Lemma append_cons c (s t : string) : String c s +:+ t = String c (s +:+ t).
Proof. reflexivity. Qed.





Lemma target_lines_accessible w lines : target_lines w lines -> accessible w.
Proof. intros (f & ? & ? & ? & ? & _). by exists f. Qed.

Lemma target_lines_decodable w lines : target_lines w lines -> decodable w.
Proof. intros (f & ? & _ & _ & _ & ? & _). by exists f. Qed.

Lemma accessible_target_lines w :
  accessible w -> decodable w -> exists lines, target_lines w lines.
Proof.
  intros (f & Hf & ? & ? & ?) (g & Hg & ?). rewrite Hf in Hg. injection Hg as <-.
  exists (splitlines (universal_newlines (contents f))). by exists f.
Qed.

(** The run of the script on a file it can access and decode. *)
Lemma main_ok w f :
  fs w !! "App.tsx" = Some f -> readable f = true -> writable f = true ->
  directory f = false -> utf8_valid (contents f) = true ->
  main w =
    (inr (),
     {| fs := <["App.tsx" :=
                 set_contents
                   (join (new_lines (splitlines (universal_newlines (contents f))))) f]>
                (fs w);
        stdout := stdout w
                  ++ [summary (new_lines (splitlines (universal_newlines (contents f))))] |}).
Proof.
  intros Hf Hr Hw Hd Hu.
  unfold main, mbind, IO_bind, open, readlines, decode, writelines, print, set_fs.
  cbn. rewrite Hf, Hr, Hd. cbn. rewrite Hf. cbn. rewrite Hu, Hf, Hd, Hw. cbn.
  by rewrite alter_insert_eq.
Qed.

Lemma main_missing w :
  fs w !! "App.tsx" = None -> main w = (inl (FileNotFoundError "App.tsx"), w).
Proof. intros Hf. unfold main, mbind, IO_bind, open. by rewrite Hf. Qed.

Lemma main_unreadable w f :
  fs w !! "App.tsx" = Some f -> readable f = false ->
  main w = (inl (PermissionError "App.tsx"), w).
Proof. intros Hf Hr. unfold main, mbind, IO_bind, open. by rewrite Hf, Hr. Qed.

Lemma main_directory w f :
  fs w !! "App.tsx" = Some f -> readable f = true -> directory f = true ->
  main w = (inl (IsADirectoryError "App.tsx"), w).
Proof. intros Hf Hr Hd. unfold main, mbind, IO_bind, open. by rewrite Hf, Hr, Hd. Qed.

(** Bytes that do not decode make [readlines] raise, before the file is
    opened for writing. *)
Lemma main_undecodable w f :
  fs w !! "App.tsx" = Some f -> readable f = true -> directory f = false ->
  utf8_valid (contents f) = false ->
  main w = (inl UnicodeDecodeError, w).
Proof.
  intros Hf Hr Hd Hu. unfold main, mbind, IO_bind, open, readlines, decode.
  cbn. rewrite Hf, Hr, Hd. cbn. rewrite Hf. cbn. by rewrite Hu.
Qed.

Lemma main_unwritable w f :
  fs w !! "App.tsx" = Some f -> readable f = true -> directory f = false ->
  utf8_valid (contents f) = true -> writable f = false ->
  main w = (inl (PermissionError "App.tsx"), w).
Proof.
  intros Hf Hr Hd Hu Hw. unfold main, mbind, IO_bind, open, readlines, decode.
  cbn. rewrite Hf, Hr, Hd. cbn. rewrite Hf. cbn. by rewrite Hu, Hf, Hd, Hw.
Qed.

Lemma main_target_lines w lines :
  target_lines w lines ->
  (main w).1 = inr () /\
  target_text (main w).2 = Some (join (new_lines lines)) /\
  stdout (main w).2 = stdout w ++ [summary (new_lines lines)].
Proof.
  intros (f & Hf & Hr & Hw & Hd & Hu & <-). rewrite (main_ok w f) by done.
  unfold target_text. cbn. by rewrite lookup_insert_eq.
Qed.

(** ** Properties of the line buffer transform *)

Lemma new_lines_sublist (lines : list line) : new_lines lines `sublist_of` lines.
Proof.
  rewrite new_lines_take_drop.
  rewrite <-(take_drop 822 lines) at 3.
  apply sublist_app; [done|].
  change 1404%nat with (822 + 582)%nat. rewrite <-drop_drop.
  apply sublist_drop.
Qed.

Lemma new_lines_lookup_prefix (lines : list line) (i : nat) :
  (i < 822)%nat → new_lines lines !! i = lines !! i.
Proof.
  intros Hi. rewrite new_lines_take_drop.
  destruct (decide (i < length lines)%nat) as [Hlt|Hge].
  - rewrite lookup_app_l by (rewrite length_take; lia).
    by apply lookup_take_lt.
  - rewrite (lookup_ge_None_2 lines) by lia.
    apply lookup_ge_None_2.
    rewrite length_app, length_take, length_drop. lia.
Qed.

Lemma new_lines_lookup_suffix (lines : list line) (j : nat) :
  (1404 + j < length lines)%nat →
  new_lines lines !! (822 + j)%nat = lines !! (1404 + j)%nat.
Proof.
  intros Hj. rewrite new_lines_take_drop.
  rewrite lookup_app_r by (rewrite length_take; lia).
  rewrite length_take, lookup_drop. f_equal. lia.
Qed.

(** C1: a buffer of N lines with 1404 <= N is written back with exactly
    N - 582 lines: the length after the edit is the length before it minus
    the size 1404 - 822 of the removed range. *)
Theorem length_after_edit (lines : list line) :
  1404 ≤ len lines →
  len (new_lines lines) = len lines - 582 ∧
  len (new_lines lines) = len lines - (1404 - 822).
Proof.
  unfold len. intros HN. rewrite length_new_lines. lia.
Qed.

(** C2: every line with index below 822 and every line with index at least
    1404 is in the output unchanged and in the original order:
    output[i] = input[i] for i < 822, output[822 + j] = input[1404 + j]
    whenever 1404 + j is an index of the input, and the output is a
    subsequence of the input. *)
Theorem lines_outside_range_preserved (lines : list line) :
  (∀ i : nat, (i < 822)%nat → new_lines lines !! i = lines !! i) ∧
  (∀ j : nat, (1404 + j < length lines)%nat →
     new_lines lines !! (822 + j)%nat = lines !! (1404 + j)%nat) ∧
  new_lines lines `sublist_of` lines.
Proof.
  split_and!.
  - intros i Hi. by apply new_lines_lookup_prefix.
  - intros j Hj. by apply new_lines_lookup_suffix.
  - apply new_lines_sublist.
Qed.

(** C4: on a buffer of N < 1404 lines nothing is raised and the removed range
    is cut at the end of the file: the output is the first min(822, N) lines
    of the input, so it has min(822, N) lines; the script completes on such
    a file and writes those lines back. *)
Theorem short_file_truncates (lines : list line) :
  len lines < 1404 →
  new_lines lines = take (Nat.min 822 (length lines)) lines ∧
  len (new_lines lines) = Z.min 822 (len lines) ∧
  (∀ w, target_lines w lines →
     (main w).1 = inr () ∧ exit_status (main w).1 = 0 ∧
     target_text (main w).2 = Some (join (take (Nat.min 822 (length lines)) lines))).
Proof.
  unfold len. intros HN.
  assert (new_lines lines = take (Nat.min 822 (length lines)) lines) as Heq.
  { rewrite new_lines_take_drop, drop_ge, app_nil_r by lia.
    by rewrite <-(take_take lines 822 (length lines)), firstn_all. }
  split_and!; [done| |].
  - rewrite Heq, length_take. lia.
  - intros w Hw. destruct (main_target_lines w lines Hw) as (Hr & Ht & _).
    by rewrite Hr, Ht, Heq.
Qed.

(** C5: a buffer of exactly 1500 lines comes out with 1500 - 582 = 918 lines,
    and the output line at index 822 is the input line at 0-indexed position
    1404 (line 1405 counting from 1). *)
Theorem scenario_1500_lines (lines : list line) :
  len lines = 1500 →
  len (new_lines lines) = 1500 - 582 ∧
  len (new_lines lines) = 918 ∧
  (∃ x : line, lines !! 1404%nat = Some x ∧ new_lines lines !! 822%nat = Some x).
Proof.
  unfold len. intros HN. rewrite length_new_lines. split_and!; [lia|lia|].
  destruct (lookup_lt_is_Some_2 lines 1404) as [x Hx]; [lia|].
  exists x. split; [done|].
  pose proof (new_lines_lookup_suffix lines 0) as Hsuffix.
  rewrite !Nat.add_0_r in Hsuffix. rewrite Hsuffix by lia. done.
Qed.

(** C7: the transform is not idempotent.  On every buffer of more than 1404
    lines a second application gives a different buffer from the first,
    because it cuts a range out of the buffer that was already cut: of the
    original lines it also removes those at positions 1404 to 1985. *)
Theorem not_idempotent (lines : list line) :
  1404 < len lines →
  new_lines (new_lines lines) ≠ new_lines lines ∧
  new_lines (new_lines lines) = take 822 lines ++ drop 1986 lines.
Proof.
  unfold len. intros HN. split.
  - intros Heq. apply (f_equal length) in Heq.
    rewrite !length_new_lines in Heq. lia.
  - rewrite (new_lines_take_drop (new_lines lines)), new_lines_take_drop.
    rewrite take_app_le, take_take by (rewrite length_take; lia).
    rewrite drop_app_ge by (rewrite length_take; lia).
    rewrite length_take, drop_drop. do 2 f_equal. lia.
Qed.

(** C8: with the two bounds equal the generalised transform
    buffer[:a] + buffer[a:] returns the buffer unchanged, for every buffer
    and every integer a (negative and out-of-range values included). *)
Theorem empty_range_identity {A : Type} (buffer : list A) (a : Z) :
  delete_range buffer a a = buffer.
Proof.
  unfold delete_range. rewrite slice_upto_adjust, slice_from_adjust.
  apply take_drop.
Qed.

(** ** Properties of the whole script *)

Lemma splitlines_blank_text (n : nat) :
  splitlines (blank_text n) = replicate n (String LF EmptyString).
Proof.
  induction n as [|n IH]; [done|].
  cbn [blank_text splitlines replicate]. rewrite bool_decide_eq_true_2 by done.
  by rewrite IH.
Qed.

Lemma utf8_valid_blank_text (n : nat) : utf8_valid (blank_text n) = true.
Proof. induction n as [|n IH]; [done|]. exact IH. Qed.

Lemma universal_newlines_blank_text (n : nat) :
  universal_newlines (blank_text n) = blank_text n.
Proof.
  unfold universal_newlines. induction n as [|n IH]; [done|].
  cbn [blank_text translate_newlines].
  rewrite bool_decide_eq_false_2, bool_decide_eq_true_2 by done. by rewrite IH.
Qed.

Lemma target_lines_world_of_text (t : string) :
  utf8_valid t = true →
  target_lines (world_of_text t) (splitlines (universal_newlines t)).
Proof. intros Ht. exists (File t true true false). split_and!; done. Qed.

Lemma accessible_dec (w : world) : accessible w ∨ ¬ accessible w.
Proof.
  unfold accessible. destruct (fs w !! "App.tsx") as [f|].
  - destruct (readable f) eqn:Hr, (writable f) eqn:Hw, (directory f) eqn:Hd;
      first [ left; by exists f
            | right; intros (g & [= <-] & ? & ? & ?); congruence ].
  - right. by intros (g & [=] & _).
Qed.

Lemma decodable_dec (w : world) : decodable w ∨ ¬ decodable w.
Proof.
  unfold decodable. destruct (fs w !! "App.tsx") as [f|].
  - destruct (utf8_valid (contents f)) eqn:Hu;
      first [ left; by exists f | right; intros (g & [= <-] & ?); congruence ].
  - right. by intros (g & [=] & _).
Qed.

(** A run on a file that can be accessed but does not decode. *)
Lemma main_accessible_undecodable (w : world) :
  accessible w → ¬ decodable w → main w = (inl UnicodeDecodeError, w).
Proof.
  intros (f & Hf & Hr & Hw & Hd) Hnd.
  apply (main_undecodable w f); try done.
  destruct (utf8_valid (contents f)) eqn:Hu; [|done].
  destruct Hnd. by exists f.
Qed.

(** A run on a file that cannot be accessed raises what [open] raised and
    changes nothing. *)
Lemma main_inaccessible (w : world) :
  ¬ accessible w →
  (main w = (inl (FileNotFoundError "App.tsx"), w) ∧ fs w !! "App.tsx" = None) ∨
  (main w = (inl (PermissionError "App.tsx"), w) ∧
   ∃ f, fs w !! "App.tsx" = Some f ∧ (readable f = false ∨ writable f = false)) ∨
  (main w = (inl (IsADirectoryError "App.tsx"), w) ∧
   ∃ f, fs w !! "App.tsx" = Some f ∧ directory f = true) ∨
  (main w = (inl UnicodeDecodeError, w) ∧
   ∃ f, fs w !! "App.tsx" = Some f ∧ utf8_valid (contents f) = false).
Proof.
  intros Hna. destruct (fs w !! "App.tsx") as [f|] eqn:Hf.
  - right. destruct (readable f) eqn:Hr.
    + destruct (directory f) eqn:Hd.
      * right. left. split; [by apply (main_directory w f)|]. by exists f.
      * destruct (utf8_valid (contents f)) eqn:Hu.
        -- destruct (writable f) eqn:Hw.
           ++ destruct Hna. by exists f.
           ++ left. split; [by apply (main_unwritable w f)|]. exists f. auto.
        -- right. right. split; [by apply (main_undecodable w f)|]. by exists f.
    + left. split; [by apply (main_unreadable w f)|]. exists f. auto.
  - left. split; [by apply main_missing|done].
Qed.

(** Every run either finds lines to work on or raises and changes nothing. *)
Lemma main_outcome (w : world) :
  (∃ lines, target_lines w lines) ∨ ((main w).2 = w ∧ ∃ e, (main w).1 = inl e).
Proof.
  destruct (accessible_dec w) as [Ha|Hna].
  - destruct (decodable_dec w) as [Hd|Hnd].
    + left. by apply accessible_target_lines.
    + right. rewrite (main_accessible_undecodable w Ha Hnd). eauto.
  - right. destruct (main_inaccessible w Hna)
      as [[-> _]|[[-> _]|[[-> _]|[-> _]]]]; eauto.
Qed.

Lemma append_cancel_l (s t u : string) : s +:+ t = s +:+ u → t = u.
Proof.
  induction s as [|c s IH]; [done|].
  rewrite !append_cons. intros [= Heq]. by apply IH.
Qed.

Lemma length_append (s t : string) :
  String.length (s +:+ t) = (String.length s + String.length t)%nat.
Proof. induction s as [|c s IH]; [done|]. rewrite append_cons. cbn. by rewrite IH. Qed.

Lemma append_cancel_r (s t u : string) : s +:+ u = t +:+ u → s = t.
Proof.
  revert t. induction s as [|c s IH]; intros [|d t] Heq; [done| | |].
  - apply (f_equal String.length) in Heq.
    rewrite !length_append in Heq. cbn in Heq. lia.
  - apply (f_equal String.length) in Heq.
    rewrite !length_append in Heq. cbn in Heq. lia.
  - rewrite !append_cons in Heq. injection Heq as -> Heq. f_equal. by apply IH.
Qed.

(** The printed line tells the total: two summaries are the same text only
    for buffers of the same length. *)
Lemma summary_inj (out out' : list line) :
  summary out = summary out' → len out = len out'.
Proof.
  unfold summary, format_summary. intros Heq.
  apply append_cancel_l, append_cancel_l, append_cancel_l in Heq.
  apply append_cancel_r in Heq. by apply (inj pretty) in Heq.
Qed.

Lemma removed_count_eq (lines : list line) :
  removed_count lines = Z.max 0 (Z.min (len lines) 1404 - 822).
Proof. unfold removed_count, len. rewrite length_new_lines. lia. Qed.

(** C3, as amended: the summary line the script prints reports, for every
    file, the number of lines of the output buffer; the removed count it
    reports is the number of lines actually removed (input length minus
    output length) on every file of at least 1404 lines. *)
Theorem summary_reports_counts (lines : list line) :
  (∃ removed : Z,
     summary (new_lines lines) = format_summary removed (len (new_lines lines))) ∧
  (1404 ≤ len lines →
     summary (new_lines lines)
       = format_summary (removed_count lines) (len (new_lines lines))) ∧
  (∀ w, target_lines w lines →
     stdout (main w).2 = stdout w ++ [summary (new_lines lines)]) ∧
  (1404 ≤ len lines →
     summary (new_lines lines)
       = "Deleted " +:+ pretty (removed_count lines) +:+ " lines. New file has "
         +:+ pretty (len (new_lines lines)) +:+ " lines.").
Proof.
  split_and!.
  - by exists (1404 - 822).
  - intros HN. unfold summary. f_equal. rewrite removed_count_eq. lia.
  - intros w Hw. by destruct (main_target_lines w lines Hw) as (_ & _ & ->).
  - intros HN. unfold summary, format_summary. rewrite removed_count_eq.
    by replace (Z.max 0 (Z.min (len lines) 1404 - 822)) with (1404 - 822) by lia.
Qed.

(** C6, as amended: the script raises exactly when the target file cannot be
    accessed (it is missing, is a directory, or reading or writing it is not
    permitted) or its bytes are not UTF-8 text.  The exception is the one
    [open] or [readlines] raised, it is not caught, the interpreter ends with
    a non-zero status and the files are left as they were.  The index bounds
    raise nothing: on a file that can be accessed and decoded the script
    completes whatever the number of lines, and every number of lines
    occurs. *)
Theorem errors_iff_inaccessible_or_undecodable :
  (∀ w, (∃ e, (main w).1 = inl e) ↔ ¬ accessible w ∨ ¬ decodable w) ∧
  (∀ w, exit_status (main w).1 ≠ 0 ↔ ¬ accessible w ∨ ¬ decodable w) ∧
  (∀ w e, (main w).1 = inl e →
     (main w).2 = w ∧
     ((e = FileNotFoundError "App.tsx" ∧ fs w !! "App.tsx" = None) ∨
      (e = PermissionError "App.tsx" ∧
       ∃ f, fs w !! "App.tsx" = Some f ∧ (readable f = false ∨ writable f = false)) ∨
      (e = IsADirectoryError "App.tsx" ∧
       ∃ f, fs w !! "App.tsx" = Some f ∧ directory f = true) ∨
      (e = UnicodeDecodeError ∧
       ∃ f, fs w !! "App.tsx" = Some f ∧ utf8_valid (contents f) = false))) ∧
  (∀ w lines, target_lines w lines → (main w).1 = inr ()) ∧
  (∀ n : nat, ∃ w lines,
     target_lines w lines ∧ length lines = n ∧ (main w).1 = inr ()).
Proof.
  assert (∀ w, accessible w → decodable w → (main w).1 = inr ()) as Hok.
  { intros w Ha Hd. destruct (accessible_target_lines w Ha Hd) as [lines Hl].
    by destruct (main_target_lines w lines Hl) as (-> & _). }
  assert (∀ w, ¬ accessible w ∨ ¬ decodable w →
               (main w).2 = w ∧ ∃ e, (main w).1 = inl e) as Hfail.
  { intros w Hno. destruct (main_outcome w) as [[lines Hl]|Hr]; [|done].
    destruct Hno as [Hna|Hnd].
    - destruct Hna. by eapply target_lines_accessible.
    - destruct Hnd. by eapply target_lines_decodable. }
  assert (∀ w, (accessible w ∧ decodable w) ∨ (¬ accessible w ∨ ¬ decodable w))
    as Hdec.
  { intros w. destruct (accessible_dec w), (decodable_dec w); auto. }
  split_and!.
  - intros w. split.
    + intros [e He]. destruct (Hdec w) as [[Ha Hd]|Hno]; [|done].
      rewrite (Hok w Ha Hd) in He. discriminate.
    + intros Hno. by destruct (Hfail w Hno) as [_ ?].
  - intros w. split.
    + intros Hst. destruct (Hdec w) as [[Ha Hd]|Hno]; [|done].
      rewrite (Hok w Ha Hd) in Hst. by destruct Hst.
    + intros Hno. by destruct (Hfail w Hno) as [_ [e ->]].
  - intros w e He. destruct (accessible_dec w) as [Ha|Hna].
    + destruct (decodable_dec w) as [Hd|Hnd].
      * rewrite (Hok w Ha Hd) in He. discriminate.
      * rewrite (main_accessible_undecodable w Ha Hnd) in He |- *.
        injection He as <-. split; [done|]. do 3 right. split; [done|].
        destruct Ha as (f & Hf & _). exists f. split; [done|].
        destruct (utf8_valid (contents f)) eqn:Hu; [|done].
        destruct Hnd. by exists f.
    + destruct (main_inaccessible w Hna)
        as [[Hm ?]|[[Hm ?]|[[Hm ?]|[Hm ?]]]]; rewrite Hm in He |- *;
        injection He as <-; auto 6.
  - intros w lines Hl. by destruct (main_target_lines w lines Hl) as (-> & _).
  - intros n. exists (world_of_text (blank_text n)), (splitlines (blank_text n)).
    assert (target_lines (world_of_text (blank_text n)) (splitlines (blank_text n)))
      as Hl.
    { rewrite <-(universal_newlines_blank_text n) at 2.
      apply target_lines_world_of_text, utf8_valid_blank_text. }
    split_and!.
    + done.
    + by rewrite splitlines_blank_text, length_replicate.
    + by destruct (main_target_lines _ _ Hl) as (-> & _).
Qed.

(** C9: the summary line is the text "Deleted 582 lines. New file has T
    lines." with T the decimal length of the output buffer: the removed
    count in it is the constant 582 (1404 - 822) whatever the file holds,
    and the total is the true length of the output buffer, which the line
    determines.  On every buffer of fewer than 1404 lines 582 is strictly
    greater than the number of lines actually removed.  This text is the
    line the script prints. *)
Theorem summary_removed_is_constant (lines : list line) :
  summary (new_lines lines)
    = "Deleted 582 lines. New file has " +:+ pretty (len (new_lines lines))
      +:+ " lines." ∧
  (∀ out : list line,
     summary out = summary (new_lines lines) → len out = len (new_lines lines)) ∧
  (len lines < 1404 → removed_count lines < 582) ∧
  (∀ w, target_lines w lines →
     stdout (main w).2
       = stdout w ++ ["Deleted 582 lines. New file has "
                      +:+ pretty (len (new_lines lines)) +:+ " lines."]).
Proof.
  split_and!.
  - reflexivity.
  - intros out. apply summary_inj.
  - intros HN. rewrite removed_count_eq. lia.
  - intros w Hw. by destruct (main_target_lines w lines Hw) as (_ & _ & ->).
Qed.

(** C10, as amended: two runs that start from the same contents of the
    target file and agree on whether it can be accessed leave the same
    contents in it and print the same; when the file can be accessed they
    also end the same way.  Other files and earlier console output play no
    part. *)
Theorem deterministic (w1 w2 : world) :
  target_text w1 = target_text w2 → (accessible w1 ↔ accessible w2) →
  target_text (main w1).2 = target_text (main w2).2 ∧
  (∃ printed : list string,
     stdout (main w1).2 = stdout w1 ++ printed ∧
     stdout (main w2).2 = stdout w2 ++ printed) ∧
  (accessible w1 → (main w1).1 = (main w2).1).
Proof.
  intros Ht Hacc.
  assert (∀ w, ¬ accessible w → (main w).2 = w) as Hna.
  { intros w Hw. destruct (main_outcome w) as [[lines Hl]|[? _]]; [|done].
    destruct Hw. by eapply target_lines_accessible. }
  destruct (accessible_dec w1) as [H1|H1].
  - pose proof (proj1 Hacc H1) as H2.
    destruct H1 as (f1 & Hf1 & Hr1 & Hw1 & Hd1).
    destruct H2 as (f2 & Hf2 & Hr2 & Hw2 & Hd2).
    pose proof Ht as Ht0.
    unfold target_text in Ht. rewrite Hf1, Hf2 in Ht. injection Ht as Ht.
    destruct (utf8_valid (contents f1)) eqn:Hu1.
    + assert (utf8_valid (contents f2) = true) as Hu2 by by rewrite <-Ht.
      rewrite (main_ok w1 f1), (main_ok w2 f2) by done.
      unfold target_text. cbn. rewrite !lookup_insert_eq, Ht. cbn.
      split_and!; [done|by eexists|done].
    + assert (utf8_valid (contents f2) = false) as Hu2 by by rewrite <-Ht.
      rewrite (main_undecodable w1 f1), (main_undecodable w2 f2) by done.
      split_and!; [done|exists []; by rewrite !app_nil_r|done].
  - assert (¬ accessible w2) as H2 by tauto.
    rewrite (Hna w1 H1), (Hna w2 H2).
    split_and!; [done|exists []; by rewrite !app_nil_r|done].
Qed.

(** ** The theorems at concrete files *)

(** The summary does not report the lines actually removed on a short file:
    of 1000 lines the script removes 178 and prints 582. *)
Lemma summary_overstates_on_1000_lines :
  ¬ (∀ lines : list line,
       summary (new_lines lines)
         = format_summary (removed_count lines) (len (new_lines lines))).
Proof.
  intros Hall. specialize (Hall (numbered 1000)).
  assert (removed_count (numbered 1000) = 178) as Hrem by (by vm_compute).
  assert (summary (new_lines (numbered 1000))
          = "Deleted 582 lines. New file has 822 lines.") as Hsum by (by vm_compute).
  rewrite Hsum, Hrem in Hall. vm_compute in Hall. discriminate Hall.
Qed.

Lemma length_after_edit_witness :
  1404 ≤ len (numbered 1500) ∧
  len (new_lines (numbered 1500)) = len (numbered 1500) - 582.
Proof.
  assert (1404 ≤ len (numbered 1500)) as HN by (vm_compute; discriminate).
  split; [exact HN|]. exact (proj1 (length_after_edit (numbered 1500) HN)).
Defined.

Lemma lines_outside_range_preserved_witness :
  new_lines (numbered 1500) !! 5%nat = numbered 1500 !! 5%nat ∧
  new_lines (numbered 1500) !! (822 + 3)%nat = numbered 1500 !! (1404 + 3)%nat.
Proof.
  destruct (lines_outside_range_preserved (numbered 1500)) as (Hpre & Hsuf & _).
  split.
  - apply Hpre. lia.
  - apply Hsuf. vm_compute. lia.
Defined.

Lemma summary_reports_counts_witness :
  1404 ≤ len (numbered 1500) ∧
  summary (new_lines (numbered 1500))
    = format_summary (removed_count (numbered 1500)) (len (new_lines (numbered 1500))).
Proof.
  assert (1404 ≤ len (numbered 1500)) as HN by (vm_compute; discriminate).
  split; [exact HN|].
  exact (proj1 (proj2 (summary_reports_counts (numbered 1500))) HN).
Defined.

Lemma short_file_truncates_witness :
  len (numbered 1000) < 1404 ∧
  new_lines (numbered 1000) = take (Nat.min 822 (length (numbered 1000))) (numbered 1000).
Proof.
  assert (len (numbered 1000) < 1404) as HN by (vm_compute; reflexivity).
  split; [exact HN|]. exact (proj1 (short_file_truncates (numbered 1000) HN)).
Defined.

Lemma scenario_1500_lines_witness :
  len (numbered 1500) = 1500 ∧ len (new_lines (numbered 1500)) = 918.
Proof.
  assert (len (numbered 1500) = 1500) as HN by (vm_compute; reflexivity).
  split; [exact HN|].
  exact (proj1 (proj2 (scenario_1500_lines (numbered 1500) HN))).
Defined.

(** A readable and writable file whose one byte FF is not UTF-8 makes the
    script raise: raising is not confined to files that cannot be
    accessed. *)
Lemma undecodable_file_raises :
  let w := world_of_text invalid_sample in
  accessible w ∧
  main w = (inl UnicodeDecodeError, w) ∧
  ¬ (∀ w' : world, (∃ e, (main w').1 = inl e) ↔ ¬ accessible w').
Proof.
  intros w.
  assert (accessible w) as Ha.
  { exists (File invalid_sample true true false). split_and!; reflexivity. }
  assert (main w = (inl UnicodeDecodeError, w)) as Hm by (vm_compute; reflexivity).
  split_and!; [exact Ha|exact Hm|].
  intros Hall. apply (proj1 (Hall w)); [|exact Ha].
  exists UnicodeDecodeError. by rewrite Hm.
Qed.

Lemma errors_iff_inaccessible_or_undecodable_witness :
  (main (world_of_text (blank_text 2000))).1 = inr ().
Proof.
  destruct errors_iff_inaccessible_or_undecodable as (_ & _ & _ & Hok & _).
  apply (Hok _ (splitlines (blank_text 2000))).
  exists (File (blank_text 2000) true true false).
  split_and!; vm_compute; reflexivity.
Defined.

Lemma not_idempotent_witness :
  1404 < len (numbered 1500) ∧
  new_lines (new_lines (numbered 1500)) ≠ new_lines (numbered 1500).
Proof.
  assert (1404 < len (numbered 1500)) as HN by (vm_compute; reflexivity).
  split; [exact HN|]. exact (proj1 (not_idempotent (numbered 1500) HN)).
Defined.

Lemma summary_removed_is_constant_witness :
  len (numbered 1000) < 1404 ∧ removed_count (numbered 1000) < 582 ∧
  summary (new_lines (numbered 1000)) = "Deleted 582 lines. New file has 822 lines.".
Proof.
  assert (len (numbered 1000) < 1404) as HN by (vm_compute; reflexivity).
  split_and!; [exact HN| |].
  - exact (proj1 (proj2 (proj2 (summary_removed_is_constant (numbered 1000)))) HN).
  - rewrite (proj1 (summary_removed_is_constant (numbered 1000))).
    vm_compute. reflexivity.
Defined.

(** The same contents with and without write permission: one run writes the
    file back and prints its summary, the other raises and prints nothing. *)
Lemma permissions_change_outcome :
  ¬ (∀ w1 w2 : world,
       target_text w1 = target_text w2 →
       target_text (main w1).2 = target_text (main w2).2 ∧
       ∃ s, stdout (main w1).2 = stdout w1 ++ [s] ∧
            stdout (main w2).2 = stdout w2 ++ [s]).
Proof.
  intros Hall.
  specialize (Hall (world_of_text (join (numbered 1000)))
                   {| fs := {[ "App.tsx" := File (join (numbered 1000)) true false false ]};
                      stdout := [] |}).
  destruct Hall as (_ & s & _ & Hout); [reflexivity|].
  vm_compute in Hout. discriminate Hout.
Qed.

Lemma deterministic_witness :
  let w1 := world_of_text (join (numbered 1500)) in
  let w2 := {| fs := <["notes.txt" := File "n" false false false]> (fs w1);
               stdout := ["earlier output"] |} in
  target_text w1 = target_text w2 ∧ (accessible w1 ↔ accessible w2) ∧
  target_text (main w1).2 = target_text (main w2).2.
Proof.
  intros w1 w2.
  assert (accessible w1) as H1.
  { exists (File (join (numbered 1500)) true true false). split_and!; reflexivity. }
  assert (accessible w2) as H2.
  { exists (File (join (numbered 1500)) true true false). split_and!; reflexivity. }
  assert (target_text w1 = target_text w2) as Ht by reflexivity.
  assert (accessible w1 ↔ accessible w2) as Hacc by (split; intros _; assumption).
  split_and!; [exact Ht|exact Hacc|].
  exact (proj1 (deterministic w1 w2 Ht Hacc)).
Defined.

(** ** What [readlines] returns, and reading back what was written *)










(** ** Decoding and newline translation *)





















(** ** More on the line buffer transform *)

Lemma slice_between {A : Type} (l : list A) (a b : Z) :
  0 ≤ a → a ≤ b →
  slice l (Some a) (Some b) = take (Z.to_nat (b - a)) (drop (Z.to_nat a) l).
Proof.
  intros Ha Hab. unfold slice. cbn [from_option].
  rewrite !adjust_index_nonneg by lia.
  destruct (decide (b ≤ Z.of_nat (length l))) as [Hb|Hb].
  - by rewrite !Z.min_l by lia.
  - rewrite (Z.min_r b) by lia.
    destruct (decide (a ≤ Z.of_nat (length l))) as [Ha'|Ha'].
    + rewrite Z.min_l by lia. rewrite !take_ge; [done| |]; rewrite length_drop; lia.
    + rewrite Z.min_r by lia. rewrite !drop_ge by lia. by rewrite !take_nil.
Qed.

(** One more application to a buffer that already lacks the lines from 822 up
    to [m] takes out the next 582 of the original lines. *)
Lemma new_lines_again (lines : list line) (m : nat) :
  (822 ≤ m)%nat →
  new_lines (take 822 lines ++ drop m lines) = take 822 lines ++ drop (m + 582) lines.
Proof.
  intros Hm. rewrite new_lines_take_drop.
  destruct (decide (822 ≤ length lines)%nat) as [Hge|Hlt].
  - rewrite take_app_length', drop_app_ge by (rewrite length_take; lia).
    rewrite length_take, drop_drop. do 2 f_equal. lia.
  - rewrite !(drop_ge lines), !app_nil_r, take_take by lia.
    rewrite (drop_ge (take 822 lines)) by (rewrite length_take; lia).
    by rewrite app_nil_r.
Qed.

(** X1: the lines the transform takes out are exactly [lines[822:1404]]:
    putting that slice back at position 822 of the output gives the input
    again, and its length is the number of lines removed. *)
Theorem removed_segment_restores (lines : list line) :
  take 822 (new_lines lines) ++ slice lines (Some 822) (Some 1404)
    ++ drop 822 (new_lines lines) = lines ∧
  len (slice lines (Some 822) (Some 1404)) = removed_count lines.
Proof.
  rewrite slice_between by lia.
  change (Z.to_nat (1404 - 822)) with 582%nat. change (Z.to_nat 822) with 822%nat.
  split.
  - rewrite new_lines_take_drop.
    destruct (decide (822 ≤ length lines)%nat) as [Hge|Hlt].
    + rewrite take_app_length', drop_app_length' by (rewrite length_take; lia).
      change 1404%nat with (822 + 582)%nat. rewrite <-drop_drop.
      by rewrite take_drop, take_drop.
    + rewrite !(drop_ge lines), take_nil, !app_nil_r, take_take by lia.
      rewrite (drop_ge (take 822 lines)) by (rewrite length_take; lia).
      rewrite app_nil_r. apply take_ge. lia.
  - unfold removed_count, len.
    rewrite length_new_lines, length_take, length_drop. lia.
Qed.

(** X2: applying the transform twice gives the same buffer as applying it
    once exactly when the buffer has at most 1404 lines. *)
Theorem idempotent_iff_short (lines : list line) :
  new_lines (new_lines lines) = new_lines lines ↔ len lines ≤ 1404.
Proof.
  unfold len. split.
  - intros Heq. apply (f_equal length) in Heq.
    rewrite !length_new_lines in Heq. lia.
  - intros HN. rewrite (new_lines_take_drop lines).
    rewrite (drop_ge lines), app_nil_r by lia.
    rewrite new_lines_take_drop, take_take.
    rewrite drop_ge, app_nil_r by (rewrite length_take; lia). done.
Qed.

(** X3: the output is never longer than the input, and the transform
    returns its input unchanged exactly when the buffer has at most 822
    lines. *)
Theorem unchanged_iff_at_most_822 (lines : list line) :
  len (new_lines lines) ≤ len lines ∧
  (new_lines lines = lines ↔ len lines ≤ 822).
Proof.
  unfold len. split; [rewrite length_new_lines; lia|]. split.
  - intros Heq. apply (f_equal length) in Heq.
    rewrite length_new_lines in Heq. lia.
  - intros HN. rewrite new_lines_take_drop.
    by rewrite take_ge, drop_ge, app_nil_r by lia.
Qed.

(** X4: [k] applications in a row take out the lines at positions 822 up to
    822 + 582 k of the original buffer and nothing else. *)
Theorem iterated_removal (lines : list line) (k : nat) :
  Nat.iter k new_lines lines = take 822 lines ++ drop (822 + 582 * k) lines.
Proof.
  induction k as [|k IH].
  - rewrite Nat.mul_0_r, Nat.add_0_r, take_drop. reflexivity.
  - rewrite Nat.iter_succ, IH, new_lines_again by lia. do 2 f_equal. lia.
Qed.

(** X5: for bounds with 0 <= a <= b <= N the expression
    buffer[:a] + buffer[b:] has N - (b - a) elements, keeps the elements
    before a at their index and moves the element at b + j to a + j. *)
Theorem delete_range_in_bounds {A : Type} (buffer : list A) (a b : nat) :
  (a ≤ b)%nat → (b ≤ length buffer)%nat →
  len (delete_range buffer (Z.of_nat a) (Z.of_nat b))
    = len buffer - (Z.of_nat b - Z.of_nat a) ∧
  (∀ i : nat, (i < a)%nat →
     delete_range buffer (Z.of_nat a) (Z.of_nat b) !! i = buffer !! i) ∧
  (∀ j : nat,
     delete_range buffer (Z.of_nat a) (Z.of_nat b) !! (a + j)%nat = buffer !! (b + j)%nat).
Proof.
  intros Hab Hb. rewrite delete_range_take_drop by lia. rewrite !Nat2Z.id.
  split_and!.
  - unfold len. rewrite length_app, length_take, length_drop. lia.
  - intros i Hi. rewrite lookup_app_l by (rewrite length_take; lia).
    by apply lookup_take_lt.
  - intros j. rewrite lookup_app_r by (rewrite length_take; lia).
    rewrite length_take, lookup_drop. f_equal. lia.
Qed.

(** ** More on the whole script *)




(** X6: whether it completes or raises, the script leaves every file other
    than App.tsx as it was, creates and deletes no file, keeps the
    permissions of App.tsx, and adds at most one line to the console after
    what was printed before. *)
Theorem other_files_untouched (w : world) :
  (∀ path : string, path ≠ "App.tsx" → fs (main w).2 !! path = fs w !! path) ∧
  dom (fs (main w).2) = dom (fs w) ∧
  (∀ f, fs w !! "App.tsx" = Some f →
     ∃ f', fs (main w).2 !! "App.tsx" = Some f' ∧
           readable f' = readable f ∧ writable f' = writable f) ∧
  (stdout (main w).2 = stdout w ∨ ∃ s, stdout (main w).2 = stdout w ++ [s]).
Proof.
  destruct (main_outcome w) as [(lines & f & Hf & Hr & Hw & Hd & Hu & _)|[Hsame _]].
  - rewrite (main_ok w f) by done. cbn. split_and!.
    + intros path Hpath. by rewrite lookup_insert_ne.
    + apply dom_insert_lookup_L. by rewrite Hf.
    + intros g Hg. rewrite Hf in Hg. injection Hg as <-.
      rewrite lookup_insert_eq. by eexists.
    + right. by eexists.
  - rewrite Hsame. split_and!; eauto.
Qed.





Lemma delete_range_in_bounds_witness :
  (2 ≤ 5)%nat ∧ (5 ≤ length (numbered 8))%nat ∧
  len (delete_range (numbered 8) (Z.of_nat 2) (Z.of_nat 5))
    = len (numbered 8) - (Z.of_nat 5 - Z.of_nat 2).
Proof.
  assert (2 ≤ 5)%nat as Hab by lia.
  assert (5 ≤ length (numbered 8))%nat as Hb by (vm_compute; lia).
  split_and!; [exact Hab|exact Hb|].
  exact (proj1 (delete_range_in_bounds (numbered 8) 2 5 Hab Hb)).
Defined.




